(** * A shallow embedding of src/reddit_scraper.py

    The module-level script is modelled as state passing over a [World]: the
    behaviour of the API collaborator (praw), the file system, the wall clock
    and the console.  Python exceptions are the [Err] outcome of a small
    state/error monad; a [try]/[except Exception] is a match on it. *)

From Stdlib Require Import String Ascii List ZArith Bool Lia.
Import ListNotations.
Open Scope string_scope.

(** ** Exceptions and values *)

(** The exceptions the program can meet: the ones praw raises (transport,
    unknown forum, authorization), [ValueError], and [OSError] from the file
    system.  [str(e)] is the message. *)
Inductive exn_kind := NetworkError | NotFound | Forbidden | ValueError | OSError.

Record exn := mk_exn { exn_type : exn_kind; exn_msg : string }.

(** The cell values of a post dictionary: [str], [int], [bool], a [datetime]
    (carried as the epoch seconds it was built from) and pandas' [NaN] for a
    missing key. *)
Inductive value :=
| VStr (s : string)
| VInt (z : Z)
| VBool (b : bool)
| VTime (epoch : Z)
| VNaN.

(** A Python dict with its insertion order: an association list. *)
Definition post_data := list (string * value).

Fixpoint dict_get (k : string) (d : post_data) : option value :=
  match d with
  | [] => None
  | (k', v) :: d' => if String.eqb k k' then Some v else dict_get k d'
  end.

(** [d[k] = v]: overwrite in place when present, append otherwise. *)
Fixpoint dict_set (k : string) (v : value) (d : post_data) : post_data :=
  match d with
  | [] => [(k, v)]
  | (k', v') :: d' =>
      if String.eqb k k' then (k', v) :: d' else (k', v') :: dict_set k v d'
  end.

(** ** The raw post object of the API collaborator (a praw [Submission]) *)

Record RawPost := mk_raw {
  id : string;
  title : string;
  score : Z;
  num_comments : Z;
  created_utc : Z;
  url : string;
  permalink : string;
  is_self : bool;
  selftext : string;
  author : option string   (* [None], or a [Redditor] with its [.name] *)
}.

(** The listing [subreddit.top(...)] as a Python iterator: it yields posts and
    ends either normally or by raising. *)
Inductive listing :=
| LEnd
| LRaise (e : exn)
| LYield (p : RawPost) (rest : listing).

(** ** Files, pandas DataFrames and the world *)

Inductive file_kind := Xlsx | Csv.

(** A written file as its kind and its sequence of rows (sheet rows or CSV
    records); the rendering of a single cell to text is not modelled. *)
Record File := mk_file { file_type : file_kind; file_rows : list (list value) }.

Record DataFrame := mk_df { df_columns : list string; df_rows : list (list value) }.

(** A [datetime] as returned by [datetime.now()]. *)
Record datetime := mk_dt {
  dt_year : Z; dt_month : Z; dt_day : Z;
  dt_hour : Z; dt_minute : Z; dt_second : Z
}.

Record World := mk_world {
  (** [self.reddit.subreddit(name)]: a handle (the resolved forum name) or an
      exception; praw builds most handles lazily, but e.g. "random" issues a
      request and an empty name raises [ValueError]. *)
  api_subreddit : string -> sum exn string;
  (** [handle.top(time_filter=..., limit=...)] *)
  api_top : string -> string -> Z -> listing;
  fs_dirs : list string;
  fs_files : list (string * File);
  (** the error, if any, that creating the given directory or writing the
      given file raises (an OS error, or the writer rejecting a value), with
      the number of rows the file holds when it is raised: [None] when the
      file could not be opened, so that it was neither created nor truncated *)
  fs_error : string -> option (exn * option nat);
  now : datetime;
  console : list string
}.

Definition print (msg : string) (w : World) : World :=
  {| api_subreddit := api_subreddit w; api_top := api_top w;
     fs_dirs := fs_dirs w; fs_files := fs_files w; fs_error := fs_error w;
     now := now w; console := console w ++ [msg] |}.

Definition add_dir (d : string) (w : World) : World :=
  {| api_subreddit := api_subreddit w; api_top := api_top w;
     fs_dirs := d :: fs_dirs w; fs_files := fs_files w; fs_error := fs_error w;
     now := now w; console := console w |}.

Definition add_file (p : string) (f : File) (w : World) : World :=
  {| api_subreddit := api_subreddit w; api_top := api_top w;
     fs_dirs := fs_dirs w; fs_files := (p, f) :: fs_files w;
     fs_error := fs_error w; now := now w; console := console w |}.

Definition with_dirs (ds : list string) (w : World) : World :=
  {| api_subreddit := api_subreddit w; api_top := api_top w;
     fs_dirs := ds; fs_files := fs_files w; fs_error := fs_error w;
     now := now w; console := console w |}.

Fixpoint file_at (p : string) (fs : list (string * File)) : option File :=
  match fs with
  | [] => None
  | (q, f) :: fs' => if String.eqb p q then Some f else file_at p fs'
  end.

(** ** The state/error monad *)

Inductive result (A : Type) := Ok (a : A) | Err (e : exn).
Arguments Ok {A} a.
Arguments Err {A} e.

Definition M (A : Type) := World -> result A * World.

Definition ret {A} (a : A) : M A := fun w => (Ok a, w).
Definition raise {A} (e : exn) : M A := fun w => (Err e, w).
Definition bind {A B} (m : M A) (k : A -> M B) : M B :=
  fun w => match m w with
           | (Ok a, w') => k a w'
           | (Err e, w') => (Err e, w')
           end.
Definition say (msg : string) : M unit := fun w => (Ok tt, print msg w).

Notation "x <- m ;; k" := (bind m (fun x => k))
  (at level 61, m at next level, right associativity).
Notation "m ;;; k" := (bind m (fun _ => k))
  (at level 61, right associativity).

(** ** Python helpers *)

Definition digit_char (d : Z) : ascii := ascii_of_nat (48 + Z.to_nat d).

(** [str(n)] for a natural number, fuelled by its own size. *)
Fixpoint nat_digits (fuel : nat) (n : Z) (acc : string) : string :=
  match fuel with
  | O => acc
  | S fuel' =>
      let acc' := String (digit_char (n mod 10)) acc in
      if (n <? 10)%Z then acc' else nat_digits fuel' (n / 10) acc'
  end.

Definition str_Z (n : Z) : string :=
  if (n <? 0)%Z then "-" ++ nat_digits 64 (- n) ""
  else nat_digits 64 n "".

Definition str_exn (e : exn) : string := exn_msg e.

(** [s.endswith(suf)] *)
Definition endswith (s suf : string) : bool :=
  let n := String.length s in
  let k := String.length suf in
  (k <=? n)%nat && String.eqb (substring (n - k) k s) suf.

(** ** Post Record Builder: the body of the loop of [get_top_posts] (l. 42-64) *)

Definition build_post_data (subreddit_name : string) (post : RawPost) : post_data :=
  let post_data0 :=
    [("subreddit", VStr subreddit_name);
     ("post_id", VStr (id post));
     ("title", VStr (title post));
     ("score", VInt (score post));
     ("num_comments", VInt (num_comments post));
     ("created_utc", VTime (created_utc post));
     ("url", VStr (url post));
     ("permalink", VStr ("https://www.reddit.com" ++ permalink post));
     ("is_self_post", VBool (is_self post))] in
  let post_data1 :=
    if is_self post then dict_set "selftext" (VStr (selftext post)) post_data0
    else dict_set "selftext" (VStr "") post_data0 in
  match author post with
  | Some name => dict_set "author" (VStr name) post_data1
  | None => dict_set "author" (VStr "[deleted]") post_data1
  end.

(** ** Forum Fetcher: [RedditScraper.get_top_posts] (l. 24-73) *)

(** The [for] loop of the [try] block: [posts.append(post_data)] per yielded
    post; an exception of the iterator leaves the loop. *)
Fixpoint fetch_loop (subreddit_name : string) (posts : list post_data) (it : listing)
  : sum exn (list post_data) :=
  match it with
  | LEnd => inr posts
  | LRaise e => inl e
  | LYield post rest =>
      fetch_loop subreddit_name (posts ++ [build_post_data subreddit_name post]) rest
  end.

Definition get_top_posts (subreddit_name : string) (limit : Z) (time_filter : string)
  : M (list post_data) :=
  fun w =>
    (* l. 36, before the [try] *)
    match api_subreddit w subreddit_name with
    | inl e => (Err e, w)
    | inr subreddit =>
        let posts := @nil post_data in
        match fetch_loop subreddit_name posts (api_top w subreddit time_filter limit) with
        | inr posts =>
            (Ok posts,
             print ("Successfully scraped " ++ str_Z (Z.of_nat (length posts))
                    ++ " posts from r/" ++ subreddit_name) w)
        | inl e =>
            (* [except Exception as e] *)
            (Ok [], print ("Error scraping r/" ++ subreddit_name ++ ": " ++ str_exn e) w)
        end
    end.

(** ** pandas: [pd.DataFrame(list_of_dicts)], [pd.DataFrame()], [df.empty] *)

(** The columns of [pd.DataFrame(records)]: every key, in order of first
    appearance. *)
Fixpoint add_keys (cols : list string) (d : post_data) : list string :=
  match d with
  | [] => cols
  | (k, _) :: d' =>
      add_keys (if existsb (String.eqb k) cols then cols else cols ++ [k]) d'
  end.

Definition union_keys (recs : list post_data) : list string :=
  fold_left add_keys recs [].

Definition cell (c : string) (r : post_data) : value :=
  match dict_get c r with Some v => v | None => VNaN end.

Definition DataFrame_of_records (recs : list post_data) : DataFrame :=
  let cols := union_keys recs in
  mk_df cols (map (fun r => map (fun c => cell c r) cols) recs).

Definition DataFrame_empty : DataFrame := mk_df [] [].

(** [df.empty]: some axis has length 0. *)
Definition df_empty (df : DataFrame) : bool :=
  match df_columns df, df_rows df with
  | [], _ => true
  | _, [] => true
  | _, _ => false
  end.

(** ** Batch Aggregator: [RedditScraper.scrape_multiple_subreddits] (l. 75-103) *)

(** The [for] loop over the forum names; [time.sleep(2)] has no effect on
    the modelled state. *)
Fixpoint scrape_loop (subreddit_list : list string) (limit : Z) (time_filter : string)
  (all_posts : list post_data) : M (list post_data) :=
  match subreddit_list with
  | [] => ret all_posts
  | subreddit :: rest =>
      say ("Scraping r/" ++ subreddit ++ "...") ;;;
      posts <- get_top_posts subreddit limit time_filter ;;
      scrape_loop rest limit time_filter (all_posts ++ posts)
  end.

Definition scrape_multiple_subreddits (subreddit_list : list string) (limit : Z)
  (time_filter : string) : M DataFrame :=
  all_posts <- scrape_loop subreddit_list limit time_filter [] ;;
  match all_posts with
  | [] => say "No posts were collected." ;;; ret DataFrame_empty
  | _ => ret (DataFrame_of_records all_posts)
  end.

(** ** [os.path.dirname], [os.path.exists], [os.makedirs] *)

(** [p[:p.rfind('/') + 1]] *)
Fixpoint upto_last_slash (s : string) : string :=
  match s with
  | EmptyString => ""
  | String c rest =>
      let h := upto_last_slash rest in
      if String.eqb h "" then (if Ascii.eqb c "/"%char then "/" else "")
      else String c h
  end.

Definition all_slashes (s : string) : bool :=
  forallb (fun c => Ascii.eqb c "/"%char) (list_ascii_of_string s).

Fixpoint drop_slashes (l : list ascii) : list ascii :=
  match l with
  | c :: l' => if Ascii.eqb c "/"%char then drop_slashes l' else l
  | [] => []
  end.

Definition rstrip_slash (s : string) : string :=
  string_of_list_ascii (rev (drop_slashes (rev (list_ascii_of_string s)))).

Definition dirname (p : string) : string :=
  let head := upto_last_slash p in
  if negb (String.eqb head "") && negb (all_slashes head) then rstrip_slash head
  else head.

Definition path_exists_in (w : World) (p : string) : bool :=
  existsb (String.eqb p) (fs_dirs w)
  || match file_at p (fs_files w) with Some _ => true | None => false end.

Definition path_exists (p : string) : M bool := fun w => (Ok (path_exists_in w p), w).

(** [os.mkdir(name)] *)
Definition mkdir (name : string) : M unit :=
  fun w => match fs_error w name with
           | Some (e, _) => (Err e, w)
           | None => (Ok tt, add_dir name w)
           end.

(** [os.makedirs(name)]: a missing parent ([head and tail and not
    path.exists(head)]) is created first, recursively, then [mkdir(name)];
    the recursion stops at a root such as "/", whose dirname is itself. It is
    fuelled by the length of the path, which each step shortens. *)
Fixpoint makedirs_fuel (fuel : nat) (name : string) : M unit :=
  match fuel with
  | O => mkdir name
  | S fuel' =>
      let head := dirname name in
      ex <- path_exists head ;;
      (if negb (String.eqb head "") && negb (String.eqb head name) && negb ex
       then makedirs_fuel fuel' head else ret tt) ;;;
      mkdir name
  end.

Definition makedirs (name : string) : M unit := makedirs_fuel (String.length name) name.

(** The file [df.to_excel(path, index=False)] and [df.to_csv(path,
    index=False)] write: a header row of the column names, then the rows, no
    index column. *)
Definition df_to_file (k : file_kind) (df : DataFrame) : File :=
  mk_file k (map VStr (df_columns df) :: df_rows df).

(** pandas opens the destination (creating or truncating it), then writes the
    rows; an error raised after the opening leaves the rows written so far. *)
Definition write_df (k : file_kind) (df : DataFrame) (path : string) : M unit :=
  fun w => match fs_error w path with
           | None => (Ok tt, add_file path (df_to_file k df) w)
           | Some (e, None) => (Err e, w)
           | Some (e, Some n) =>
               (Err e, add_file path (mk_file k (firstn n (file_rows (df_to_file k df)))) w)
           end.

(** ** [datetime.now().strftime("%Y%m%d_%H%M%S")] *)

Definition get_now : M datetime := fun w => (Ok (now w), w).

(** [%Y] is the year in decimal; the other fields are zero-padded to two. *)
Definition pad2 (n : Z) : string :=
  if (n <? 10)%Z then "0" ++ str_Z n else str_Z n.

Definition strftime_stamp (t : datetime) : string :=
  str_Z (dt_year t) ++ pad2 (dt_month t) ++ pad2 (dt_day t) ++ "_"
  ++ pad2 (dt_hour t) ++ pad2 (dt_minute t) ++ pad2 (dt_second t).

(** ** Exporter: [save_to_excel] (l. 105-133) and [save_to_csv] (l. 135-163) *)

Definition ext_of (k : file_kind) : string :=
  match k with Xlsx => ".xlsx" | Csv => ".csv" end.

(** The two methods have the same body up to the extension of the default
    name and the pandas writer. *)
Definition save_df (k : file_kind) (df : DataFrame) (output_file : option string)
  : M (option string) :=
  if df_empty df then say "No data to save." ;;; ret None
  else
    output_file <- match output_file with
                   | None =>
                       t <- get_now ;;
                       ret ("reddit_top_posts_" ++ strftime_stamp t ++ ext_of k)
                   | Some f => ret f
                   end ;;
    let output_dir := dirname output_file in
    ex <- path_exists output_dir ;;
    (if negb (String.eqb output_dir "") && negb ex then makedirs output_dir
     else ret tt) ;;;
    write_df k df output_file ;;;
    say ("Data saved to " ++ output_file) ;;;
    ret (Some output_file).

Definition save_to_excel (df : DataFrame) (output_file : option string) : M (option string) :=
  save_df Xlsx df output_file.

Definition save_to_csv (df : DataFrame) (output_file : option string) : M (option string) :=
  save_df Csv df output_file.

(** ** [main] (l. 166-214), after [argparse] *)

Record Args := mk_args {
  a_subreddits : list string;
  a_limit : Z;
  a_time_filter : string;
  a_output : option string;
  a_client_id : string;
  a_client_secret : string;
  a_user_agent : string
}.

(** l. 203-214; [if args.output:] is Python truthiness, false for "" too. *)
Definition save_output (output : option string) (df : DataFrame) : M unit :=
  let default := (_ <- save_to_excel df None ;; ret tt) in
  match output with
  | None => default
  | Some o =>
      if String.eqb o "" then default
      else if endswith o ".xlsx" then (_ <- save_to_excel df (Some o) ;; ret tt)
      else if endswith o ".csv" then (_ <- save_to_csv df (Some o) ;; ret tt)
      else say "Unsupported output format. Using CSV format." ;;;
           _ <- save_to_csv df (Some (o ++ ".csv")) ;; ret tt
  end.

(** [praw.Reddit(...)] only records the credentials; no request is made. *)
Definition main (args : Args) : M unit :=
  df <- scrape_multiple_subreddits (a_subreddits args) (a_limit args) (a_time_filter args) ;;
  save_output (a_output args) df.

(** The process exit status: 0 on normal completion, 1 on an uncaught
    exception. *)
Definition exit_code (args : Args) (w : World) : Z :=
  match fst (main args w) with Ok _ => 0 | Err _ => 1 end.

(** ** Derived names used by the statements *)

(** The keys [get_top_posts] puts in every post dictionary, in insertion order. *)
Definition post_fields : list string :=
  ["subreddit"; "post_id"; "title"; "score"; "num_comments"; "created_utc";
   "url"; "permalink"; "is_self_post"; "selftext"; "author"].

(** A listing that yields [ps] and then behaves as [tail]. *)
Fixpoint yields_then (ps : list RawPost) (tail : listing) : listing :=
  match ps with
  | [] => tail
  | p :: ps' => LYield p (yields_then ps' tail)
  end.

(** * Builder and fetcher *)

Lemma build_post_data_keys (f : string) (post : RawPost) :
  map fst (build_post_data f post) = post_fields.
Proof.
  destruct post as [i t s n c u l b x a]; destruct b, a; reflexivity.
Qed.

Lemma fetch_loop_yields (name : string) (acc : list post_data) (ps : list RawPost)
  (tail : listing) :
  fetch_loop name acc (yields_then ps tail)
  = fetch_loop name (acc ++ map (build_post_data name) ps) tail.
Proof.
  revert acc; induction ps as [|p ps IH]; intros acc; simpl.
  - now rewrite app_nil_r.
  - rewrite IH, <- app_assoc. reflexivity.
Qed.

Lemma listing_shape (it : listing) :
  exists ps, it = yields_then ps LEnd \/ exists e, it = yields_then ps (LRaise e).
Proof.
  induction it as [| e | p rest [ps [H | [e H]]]].
  - exists []; now left.
  - exists []; right; now exists e.
  - exists (p :: ps); left; simpl; now rewrite H.
  - exists (p :: ps); right; exists e; simpl; now rewrite H.
Qed.


(** C7: a record built from a raw post with no author has [author] equal to
    "[deleted]"; with an author, it has the author's name. *)
Theorem build_author_deleted (f : string) (post : RawPost) :
  (author post = None ->
   dict_get "author" (build_post_data f post) = Some (VStr "[deleted]"))
  /\ (forall name, author post = Some name ->
      dict_get "author" (build_post_data f post) = Some (VStr name)).
Proof.
  destruct post as [i t s n c u l b x a]; simpl.
  split; [intros -> | intros name ->]; destruct b; reflexivity.
Qed.

(** C8: a record built from a raw post that is not a self post has
    [selftext] equal to "", whatever the raw body holds; for a self post it is
    the raw body. *)
Theorem build_selftext_empty (f : string) (post : RawPost) :
  (is_self post = false ->
   dict_get "selftext" (build_post_data f post) = Some (VStr ""))
  /\ (is_self post = true ->
      dict_get "selftext" (build_post_data f post) = Some (VStr (selftext post))).
Proof.
  destruct post as [i t s n c u l b x a]; simpl.
  split; intros ->; destruct a; reflexivity.
Qed.

(** C10: when the handle is created and the listing raises after having
    yielded [ps] (converted to records on the way), [get_top_posts] drops them:
    it returns [] and prints the error. *)
Theorem get_top_posts_discards_partial (name : string) (limit : Z) (tf : string)
  (w : World) (h : string) (ps : list RawPost) (e : exn)
  (Hh : api_subreddit w name = inr h)
  (Hl : api_top w h tf limit = yields_then ps (LRaise e)) :
  get_top_posts name limit tf w
  = (Ok [], print ("Error scraping r/" ++ name ++ ": " ++ str_exn e) w).
Proof.
  unfold get_top_posts; rewrite Hh, Hl, fetch_loop_yields; reflexivity.
Qed.

(** ** Concrete inputs *)

Definition sample_post : RawPost :=
  mk_raw "abc123" "Hello" 42 7 1700000000 "https://example.com"
    "/r/python/comments/abc123/hello/" false "stray" (Some "alice").

Definition net_error : exn := mk_exn NetworkError "Connection refused".

Definition sample_now : datetime := mk_dt 2026 10 15 9 30 5.

Definition world_of (sub : string -> sum exn string)
  (top : string -> string -> Z -> listing) (err : string -> option (exn * option nat)) : World :=
  mk_world sub top [] [] err sample_now [].

(** Every handle is built; the listing yields one post, then the connection
    drops. *)
Definition w_flaky : World :=
  world_of (fun n => inr n) (fun _ _ _ => yields_then [sample_post] (LRaise net_error))
    (fun _ => None).

(** [reddit.subreddit("random")] issues a request in praw, here one that fails;
    other handles are lazy, and every listing yields one post. *)
Definition w_random : World :=
  world_of (fun n => if String.eqb n "random" then inl net_error else inr n)
    (fun _ _ _ => yields_then [sample_post] LEnd) (fun _ => None).

Definition args_of (subs : list string) (output : option string) : Args :=
  mk_args subs 25 "week" output "id" "secret" "RedditScraper/1.0".

Lemma get_top_posts_discards_partial_witness :
  api_subreddit w_flaky "python" = inr "python"
  /\ api_top w_flaky "python" "week" 25 = yields_then [sample_post] (LRaise net_error)
  /\ get_top_posts "python" 25 "week" w_flaky
     = (Ok [], print ("Error scraping r/" ++ "python" ++ ": " ++ str_exn net_error) w_flaky).
Proof.
  split; [reflexivity | split; [reflexivity |]].
  apply (get_top_posts_discards_partial "python" 25 "week" w_flaky "python"
           [sample_post] net_error); reflexivity.
Defined.

(** C1: the handle is created on line 36, before the [try]: an error raised
    there (praw's request for "random", here a network failure) is not caught,
    [get_top_posts] raises, the batch stops before "python" and the process
    exits with status 1.  A listing error on the same world is caught. *)
Theorem get_top_posts_handle_error_escapes :
  fst (get_top_posts "random" 25 "week" w_random) = Err net_error
  /\ fst (scrape_multiple_subreddits ["random"; "python"] 25 "week" w_random) = Err net_error
  /\ exit_code (args_of ["random"; "python"] (Some "out.csv")) w_random = 1%Z
  /\ fst (get_top_posts "python" 25 "week" w_flaky) = Ok [].
Proof. vm_compute. repeat split. Qed.

(** * Batch aggregator *)

(** The per-forum results of [get_top_posts], each forum fetched on its own
    against the same collaborator, stopping at the first exception. *)
Fixpoint fetch_each (l : list string) (limit : Z) (tf : string) (w : World)
  : result (list (list post_data)) :=
  match l with
  | [] => Ok []
  | n :: l' =>
      match fst (get_top_posts n limit tf w) with
      | Err e => Err e
      | Ok ps =>
          match fetch_each l' limit tf w with
          | Ok lss => Ok (ps :: lss)
          | Err e => Err e
          end
      end
  end.

Definition same_api (w w' : World) : Prop :=
  api_subreddit w = api_subreddit w' /\ api_top w = api_top w'.

Lemma same_api_print (m : string) (w : World) : same_api (print m w) w.
Proof. split; reflexivity. Qed.

Lemma get_top_posts_api_world (n : string) (limit : Z) (tf : string) (w : World) :
  same_api (snd (get_top_posts n limit tf w)) w.
Proof.
  unfold get_top_posts.
  destruct (api_subreddit w n) as [e | h]; [split; reflexivity |].
  destruct (fetch_loop _ _ _); apply same_api_print.
Qed.

Lemma get_top_posts_api_result (n : string) (limit : Z) (tf : string) (w w' : World) :
  same_api w w' -> fst (get_top_posts n limit tf w) = fst (get_top_posts n limit tf w').
Proof.
  intros [Hs Ht]; unfold get_top_posts; rewrite Hs, Ht.
  destruct (api_subreddit w' n); [reflexivity |].
  destruct (fetch_loop _ _ _); reflexivity.
Qed.

Lemma fetch_each_api (l : list string) (limit : Z) (tf : string) (w w' : World) :
  same_api w w' -> fetch_each l limit tf w = fetch_each l limit tf w'.
Proof.
  intros H; induction l as [| n l IH]; simpl; [reflexivity |].
  rewrite (get_top_posts_api_result n limit tf w w' H), IH; reflexivity.
Qed.

Lemma same_api_trans (w1 w2 w3 : World) :
  same_api w1 w2 -> same_api w2 w3 -> same_api w1 w3.
Proof. intros [A B] [C D]; split; congruence. Qed.

Lemma scrape_loop_concat (l : list string) (limit : Z) (tf : string) :
  forall (acc : list post_data) (w : World),
  fst (scrape_loop l limit tf acc w)
  = match fetch_each l limit tf w with
    | Ok lss => Ok (acc ++ concat lss)%list
    | Err e => Err e
    end.
Proof.
  induction l as [| n l IH]; intros acc w; cbn [scrape_loop fetch_each].
  - cbn; now rewrite app_nil_r.
  - unfold bind at 1, say; cbv beta.
    remember (print ("Scraping r/" ++ n ++ "...") w) as w0 eqn:Hw0.
    assert (H0 : same_api w0 w) by (subst; apply same_api_print).
    rewrite <- (get_top_posts_api_result n limit tf w0 w H0).
    pose proof (get_top_posts_api_world n limit tf w0) as Hw.
    unfold bind.
    destruct (get_top_posts n limit tf w0) as [[ps | e] w1]; simpl in *; [| reflexivity].
    rewrite IH, (fetch_each_api l limit tf w1 w (same_api_trans _ _ _ Hw H0)).
    destruct (fetch_each l limit tf w); [| reflexivity].
    simpl; now rewrite app_assoc.
Qed.

(** C2: when every forum's fetch returns, [scrape_multiple_subreddits] returns
    the DataFrame whose rows are the records of the concatenation of the
    per-forum lists, in order and without deduplication; when that
    concatenation is empty, it is the empty [pd.DataFrame()]. *)
Theorem scrape_multiple_concat (l : list string) (limit : Z) (tf : string) (w : World)
  (lss : list (list post_data))
  (H : fetch_each l limit tf w = Ok lss) :
  exists df,
    fst (scrape_multiple_subreddits l limit tf w) = Ok df
    /\ df_rows df = map (fun r => map (fun c => cell c r) (df_columns df)) (concat lss)
    /\ (concat lss = [] -> df = DataFrame_empty)
    /\ (concat lss <> [] -> df = DataFrame_of_records (concat lss)).
Proof.
  pose proof (scrape_loop_concat l limit tf [] w) as E; rewrite H in E.
  unfold scrape_multiple_subreddits, bind at 1.
  destruct (scrape_loop l limit tf [] w) as [r w1]; simpl in E; subst r.
  destruct (concat lss) as [| r rs] eqn:Hc.
  - exists DataFrame_empty; repeat split.
  - exists (DataFrame_of_records (r :: rs)); repeat split; intros C; discriminate C.
Qed.

(** * Exporter *)

(** The path [save_df] writes to: the given one, or the timestamped default. *)
Definition dest_name (k : file_kind) (dest : option string) (t : datetime) : string :=
  match dest with
  | Some f => f
  | None => "reddit_top_posts_" ++ strftime_stamp t ++ ext_of k
  end.

(** ** Directory creation and the write, step by step *)

Lemma mkdir_frame (name : string) (w : World) (r : result unit) (w' : World) :
  mkdir name w = (r, w') ->
  (exists ds, w' = with_dirs ds w /\ incl (fs_dirs w) ds)
  /\ (r = Ok tt -> In name (fs_dirs w'))
  /\ (forall e, r = Err e -> exists p x, fs_error w p = Some (e, x)).
Proof.
  unfold mkdir; destruct (fs_error w name) as [[e x] |] eqn:E; intros H;
    injection H as <- <-.
  - split; [exists (fs_dirs w); split; [destruct w; reflexivity | intros y Hy; exact Hy] |].
    split; [discriminate | intros e' He; injection He as <-; exists name, x; exact E].
  - split; [exists (name :: fs_dirs w); split; [reflexivity | intros y Hy; right; exact Hy] |].
    split; [intros _; simpl; left; reflexivity | discriminate].
Qed.

Lemma makedirs_fuel_frame (fuel : nat) :
  forall (name : string) (w : World) (r : result unit) (w' : World),
  makedirs_fuel fuel name w = (r, w') ->
  (exists ds, w' = with_dirs ds w /\ incl (fs_dirs w) ds)
  /\ (r = Ok tt -> In name (fs_dirs w'))
  /\ (forall e, r = Err e -> exists p x, fs_error w p = Some (e, x)).
Proof.
  induction fuel as [| fuel IH]; intros name w r w' H; [exact (mkdir_frame name w r w' H) |].
  cbn [makedirs_fuel] in H; unfold bind at 1, path_exists in H; cbv beta iota zeta in H.
  match type of H with context [if ?c then _ else _] => destruct c end;
    unfold bind in H.
  - destruct (makedirs_fuel fuel (dirname name) w) as [r1 w1] eqn:E1.
    destruct (IH _ _ _ _ E1) as [[ds1 [-> I1]] [_ O1]].
    destruct r1 as [[] | e1].
    + destruct (mkdir_frame name _ _ _ H) as [[ds2 [-> I2]] [S2 O2]].
      split; [exists ds2; split; [reflexivity | intros y Hy; apply I2, I1, Hy] |].
      split; [exact S2 | exact O2].
    + injection H as <- <-.
      split; [exists ds1; split; [reflexivity | exact I1] |].
      split; [discriminate | exact O1].
  - unfold ret in H; exact (mkdir_frame name w r w' H).
Qed.

Lemma makedirs_frame (name : string) (w : World) (r : result unit) (w' : World) :
  makedirs name w = (r, w') ->
  (exists ds, w' = with_dirs ds w /\ incl (fs_dirs w) ds)
  /\ (r = Ok tt -> In name (fs_dirs w'))
  /\ (forall e, r = Err e -> exists p x, fs_error w p = Some (e, x)).
Proof. apply makedirs_fuel_frame. Qed.

Lemma makedirs_ok (name : string) (w : World) :
  (forall q, fs_error w q = None) -> exists ds, makedirs name w = (Ok tt, with_dirs ds w).
Proof.
  assert (K : forall name w, (forall q, fs_error w q = None) ->
            mkdir name w = (Ok tt, with_dirs (name :: fs_dirs w) w)).
  { intros n0 w0 H0; unfold mkdir; rewrite H0; reflexivity. }
  unfold makedirs; generalize (String.length name) as fuel; intros fuel.
  revert name w; induction fuel as [| fuel IH]; intros name w Hfs;
    [eexists; apply K, Hfs |].
  cbn [makedirs_fuel]; unfold bind at 1, path_exists; cbv beta iota zeta.
  match goal with |- context [if ?c then _ else _] => destruct c end; unfold bind.
  - destruct (IH (dirname name) w Hfs) as [ds E]; rewrite E.
    exists (name :: ds); exact (K name (with_dirs ds w) Hfs).
  - unfold ret; eexists; apply K, Hfs.
Qed.

(** A non-empty DataFrame: [save_df] computes its destination, creates the
    missing parent directory, writes, and reports. *)
Lemma save_df_steps (k : file_kind) (df : DataFrame) (dest : option string) (w : World) :
  df_empty df = false ->
  save_df k df dest w
  = ((if negb (String.eqb (dirname (dest_name k dest (now w))) "")
         && negb (path_exists_in w (dirname (dest_name k dest (now w))))
      then makedirs (dirname (dest_name k dest (now w))) else ret tt) ;;;
     write_df k df (dest_name k dest (now w)) ;;;
     say ("Data saved to " ++ dest_name k dest (now w)) ;;;
     ret (Some (dest_name k dest (now w)))) w.
Proof. intros Hd; unfold save_df; rewrite Hd; destruct dest; reflexivity. Qed.

(** The run of [save_df] up to the write: either creating the parent raised,
    or the write starts in a world [w0] that differs from [w] at most by new
    directories, where the parent of the destination exists. *)
Lemma save_df_cases (k : file_kind) (df : DataFrame) (dest : option string) (w : World)
  (r : result (option string)) (w' : World)
  (Hd : df_empty df = false) (H : save_df k df dest w = (r, w')) :
  (exists e, r = Err e /\ (exists p x, fs_error w p = Some (e, x))
             /\ exists ds, w' = with_dirs ds w /\ incl (fs_dirs w) ds)
  \/ exists w0,
       (write_df k df (dest_name k dest (now w)) ;;;
        say ("Data saved to " ++ dest_name k dest (now w)) ;;;
        ret (Some (dest_name k dest (now w)))) w0 = (r, w')
       /\ fs_error w0 = fs_error w /\ fs_files w0 = fs_files w
       /\ incl (fs_dirs w) (fs_dirs w0)
       /\ (dirname (dest_name k dest (now w)) = ""
           \/ In (dirname (dest_name k dest (now w))) (fs_dirs w0)
           \/ exists f, file_at (dirname (dest_name k dest (now w))) (fs_files w) = Some f).
Proof.
  rewrite (save_df_steps k df dest w Hd) in H.
  set (q0 := dest_name k dest (now w)) in *.
  unfold bind at 1 in H.
  destruct (negb (String.eqb (dirname q0) "") && negb (path_exists_in w (dirname q0)))%bool
    eqn:C; cbv beta iota in H.
  - destruct (makedirs (dirname q0) w) as [r1 w1] eqn:E1.
    destruct (makedirs_frame _ _ _ _ E1) as [[ds [-> I]] [S O]].
    destruct r1 as [[] | e1].
    + right; exists (with_dirs ds w); split; [exact H |].
      split; [reflexivity | split; [reflexivity | split; [exact I |]]].
      right; left; exact (S eq_refl).
    + left; injection H as <- <-; exists e1; split; [reflexivity |].
      split; [exact (O e1 eq_refl) | exists ds; split; [reflexivity | exact I]].
  - unfold ret at 1 in H; cbv beta iota in H.
    right; exists w; split; [exact H |].
    split; [reflexivity | split; [reflexivity | split; [intros y Hy; exact Hy |]]].
    apply andb_false_iff in C as [C | C]; apply negb_false_iff in C;
      [left; apply String.eqb_eq; exact C |].
    unfold path_exists_in in C; apply orb_true_iff in C as [C | C].
    + right; left; apply existsb_exists in C as [x [Hx Ex]].
      apply String.eqb_eq in Ex; subst x; exact Hx.
    + right; right; destruct (file_at _ _) as [g |]; [exists g; reflexivity | discriminate C].
Qed.

(** The write and the report: success adds the file; an error leaves either
    nothing (the destination could not be opened) or the rows written so far. *)
Lemma save_tail_cases (k : file_kind) (df : DataFrame) (q0 : string) (w0 : World)
  (r : result (option string)) (w' : World) :
  (write_df k df q0 ;;; say ("Data saved to " ++ q0) ;;; ret (Some q0)) w0 = (r, w') ->
  fs_dirs w' = fs_dirs w0
  /\ ((r = Ok (Some q0) /\ fs_error w0 q0 = None
       /\ fs_files w' = (q0, df_to_file k df) :: fs_files w0)
      \/ exists e x, r = Err e /\ fs_error w0 q0 = Some (e, x)
         /\ (fs_files w' = fs_files w0
             \/ exists n, fs_files w'
                          = (q0, mk_file k (firstn n (file_rows (df_to_file k df))))
                            :: fs_files w0)).
Proof.
  unfold bind, write_df, say, ret.
  destruct (fs_error w0 q0) as [[e [n |]] |] eqn:E; intros H; cbv beta iota in H;
    injection H as <- <-; (split; [reflexivity |]).
  - right; exists e, (Some n); split; [reflexivity | split; [reflexivity |]].
    right; exists n; reflexivity.
  - right; exists e, None; split; [reflexivity | split; [reflexivity |]].
    left; reflexivity.
  - left; split; [reflexivity | split; [reflexivity | reflexivity]].
Qed.

Lemma save_df_success (k : file_kind) (df : DataFrame) (dest : option string) (w : World)
  (Hne : df_empty df = false) (Hfs : forall q, fs_error w q = None) :
  exists w',
    save_df k df dest w = (Ok (Some (dest_name k dest (now w))), w')
    /\ fs_files w' = (dest_name k dest (now w), df_to_file k df) :: fs_files w
    /\ fs_error w' = fs_error w.
Proof.
  rewrite (save_df_steps k df dest w Hne); unfold bind at 1.
  match goal with |- context [if ?c then _ else _] => destruct c end; cbv beta iota.
  - destruct (makedirs_ok (dirname (dest_name k dest (now w))) w Hfs) as [ds E].
    rewrite E; unfold bind, write_df, say, ret; cbn [fs_error with_dirs]; rewrite Hfs.
    eexists; split; [reflexivity | split; reflexivity].
  - unfold bind, write_df, say, ret; rewrite Hfs.
    eexists; split; [reflexivity | split; reflexivity].
Qed.

(** Where [save_df] raises, the error is one the file system or the writer
    raised for some path. *)
Lemma save_df_error_origin (k : file_kind) (df : DataFrame) (dest : option string)
  (w : World) (e : exn) (w' : World) :
  save_df k df dest w = (Err e, w') -> exists p x, fs_error w p = Some (e, x).
Proof.
  intros H; destruct (df_empty df) eqn:Hd;
    [unfold save_df in H; rewrite Hd in H; discriminate H |].
  destruct (save_df_cases k df dest w _ _ Hd H) as [[e1 [Er [O _]]] | [w0 [T [Fe _]]]].
  - injection Er as <-; exact O.
  - destruct (save_tail_cases _ _ _ _ _ _ T) as [_ [[Er _] | [e1 [x [Er [O _]]]]]];
      [discriminate Er |].
    injection Er as <-; exists (dest_name k dest (now w)), x; rewrite <- Fe; exact O.
Qed.

(** C6: on an empty DataFrame both exporters print "No data to save.",
    write nothing and return [None]. *)
Theorem save_empty_no_write (df : DataFrame) (dest : option string) (w : World)
  (H : df_empty df = true) :
  save_to_excel df dest w = (Ok None, print "No data to save." w)
  /\ save_to_csv df dest w = (Ok None, print "No data to save." w)
  /\ fs_files (print "No data to save." w) = fs_files w
  /\ fs_dirs (print "No data to save." w) = fs_dirs w.
Proof.
  unfold save_to_excel, save_to_csv, save_df; rewrite H; repeat split.
Qed.

Lemma save_empty_no_write_witness :
  df_empty DataFrame_empty = true
  /\ save_to_excel DataFrame_empty (Some "out/posts.xlsx") w_flaky
     = (Ok None, print "No data to save." w_flaky)
  /\ save_to_csv DataFrame_empty (Some "out/posts.xlsx") w_flaky
     = (Ok None, print "No data to save." w_flaky)
  /\ fs_files (print "No data to save." w_flaky) = fs_files w_flaky
  /\ fs_dirs (print "No data to save." w_flaky) = fs_dirs w_flaky.
Proof.
  split; [reflexivity |].
  apply (save_empty_no_write DataFrame_empty (Some "out/posts.xlsx") w_flaky).
  reflexivity.
Defined.

(** The records [get_top_posts] builds for a sequence of (forum, post) pairs. *)
Definition records_of (inputs : list (string * RawPost)) : list post_data :=
  map (fun fp => build_post_data (fst fp) (snd fp)) inputs.

Lemma add_keys_build_nil (f : string) (post : RawPost) :
  add_keys [] (build_post_data f post) = post_fields.
Proof. destruct post as [i t s n c u l b x a]; destruct b, a; reflexivity. Qed.

Lemma add_keys_build_fields (f : string) (post : RawPost) :
  add_keys post_fields (build_post_data f post) = post_fields.
Proof. destruct post as [i t s n c u l b x a]; destruct b, a; reflexivity. Qed.

Lemma union_keys_records (inputs : list (string * RawPost)) :
  inputs <> [] -> union_keys (records_of inputs) = post_fields.
Proof.
  destruct inputs as [| [f p] inputs]; [congruence |]; intros _.
  unfold union_keys, records_of; simpl; rewrite add_keys_build_nil.
  induction inputs as [| [g q] inputs IH]; simpl; [reflexivity |].
  rewrite add_keys_build_fields; exact IH.
Qed.

(** C4: exporting the non-empty records of a fetch, to either kind of file,
    writes exactly one file: a header row of the post fields in their fixed
    order, then one row per record in order; every row has as many cells as
    the header (no index column), so [N] records give [N + 1] rows. *)
Theorem export_header_and_rows (k : file_kind) (inputs : list (string * RawPost))
  (dest : option string) (w : World)
  (Hne : inputs <> []) (Hfs : forall q, fs_error w q = None) :
  exists path w' file,
    save_df k (DataFrame_of_records (records_of inputs)) dest w = (Ok (Some path), w')
    /\ fs_files w' = (path, file) :: fs_files w
    /\ file_type file = k
    /\ file_rows file
       = map VStr post_fields
         :: map (fun r => map (fun c => cell c r) post_fields) (records_of inputs)
    /\ length (file_rows file) = S (length (records_of inputs))
    /\ Forall (fun row => length row = length post_fields) (file_rows file).
Proof.
  assert (Hdf : df_empty (DataFrame_of_records (records_of inputs)) = false).
  { unfold df_empty, DataFrame_of_records; rewrite union_keys_records by exact Hne.
    destruct inputs; [congruence | reflexivity]. }
  destruct (save_df_success k _ dest w Hdf Hfs) as [w' [E [F _]]].
  eexists _, w', _; split; [exact E |]; split; [exact F |].
  unfold df_to_file, DataFrame_of_records; cbn [df_columns df_rows file_type file_rows].
  rewrite union_keys_records by exact Hne.
  split; [reflexivity |]; split; [| split].
  - reflexivity.
  - simpl; now rewrite length_map.
  - constructor; [apply length_map |].
    apply Forall_forall; intros row Hrow; apply in_map_iff in Hrow.
    destruct Hrow as [r [<- _]]; apply length_map.
Qed.

Lemma export_header_and_rows_witness :
  [("python", sample_post)] <> []
  /\ (forall q, fs_error w_flaky q = None)
  /\ exists path w' file,
    save_df Csv (DataFrame_of_records (records_of [("python", sample_post)]))
      (Some "out/posts.csv") w_flaky = (Ok (Some path), w')
    /\ fs_files w' = (path, file) :: fs_files w_flaky
    /\ file_type file = Csv
    /\ file_rows file
       = map VStr post_fields
         :: map (fun r => map (fun c => cell c r) post_fields)
              (records_of [("python", sample_post)])
    /\ length (file_rows file) = S (length (records_of [("python", sample_post)]))
    /\ Forall (fun row => length row = length post_fields) (file_rows file).
Proof.
  split; [discriminate |]; split; [reflexivity |].
  apply (export_header_and_rows Csv [("python", sample_post)] (Some "out/posts.csv") w_flaky);
    [discriminate | reflexivity].
Defined.

(** ** The timestamp of the default file name *)

(** The [n] least significant decimal digits of [v], most significant first,
    zero-padded: the fields of "YYYYMMDD_HHMMSS". *)
Fixpoint fixed_width (n : nat) (v : Z) : string :=
  match n with
  | O => ""
  | S n' => fixed_width n' (v / 10) ++ String (digit_char (v mod 10)) ""
  end.

(** [datetime]'s own range for each field. *)
Definition datetime_ok (t : datetime) : Prop :=
  (1 <= dt_year t <= 9999 /\ 1 <= dt_month t <= 12 /\ 1 <= dt_day t <= 31
   /\ 0 <= dt_hour t <= 23 /\ 0 <= dt_minute t <= 59 /\ 0 <= dt_second t <= 59)%Z.

Lemma length_append_str (s t : string) :
  String.length (s ++ t) = (String.length s + String.length t)%nat.
Proof. induction s as [| c s IH]; simpl; [reflexivity | now rewrite IH]. Qed.

Lemma fixed_width_length (n : nat) (v : Z) : String.length (fixed_width n v) = n.
Proof.
  revert v; induction n as [| n IH]; intros v; simpl; [reflexivity |].
  rewrite length_append_str, IH; simpl; lia.
Qed.

Lemma div10_bounds (v : Z) : (v = 10 * (v / 10) + v mod 10 /\ 0 <= v mod 10 < 10)%Z.
Proof. split; [apply Z.div_mod; lia | apply Z.mod_pos_bound; lia]. Qed.

Lemma str_Z_four_digits (y : Z) : (1000 <= y <= 9999)%Z -> str_Z y = fixed_width 4 y.
Proof.
  intros Hy.
  destruct (div10_bounds y) as [E1 B1].
  destruct (div10_bounds (y / 10)) as [E2 B2].
  destruct (div10_bounds (y / 10 / 10)) as [E3 B3].
  destruct (div10_bounds (y / 10 / 10 / 10)) as [E4 B4].
  assert (L0 : (y <? 0)%Z = false) by (apply Z.ltb_ge; lia).
  assert (L1 : (y <? 10)%Z = false) by (apply Z.ltb_ge; lia).
  assert (L2 : (y / 10 <? 10)%Z = false) by (apply Z.ltb_ge; lia).
  assert (L3 : (y / 10 / 10 <? 10)%Z = false) by (apply Z.ltb_ge; lia).
  assert (L4 : (y / 10 / 10 / 10 <? 10)%Z = true) by (apply Z.ltb_lt; lia).
  unfold str_Z; rewrite L0; cbn [nat_digits]; rewrite L1, L2, L3, L4.
  reflexivity.
Qed.

Lemma pad2_two_digits (n : Z) : (0 <= n <= 99)%Z -> pad2 n = fixed_width 2 n.
Proof.
  intros Hn; destruct (div10_bounds n) as [E1 B1].
  unfold pad2, str_Z.
  assert (L0 : (n <? 0)%Z = false) by (apply Z.ltb_ge; lia).
  rewrite L0; destruct (n <? 10)%Z eqn:L1; cbn [nat_digits]; rewrite L1.
  - apply Z.ltb_lt in L1.
    assert (Z0 : (n / 10 = 0)%Z) by (apply Z.div_small; lia).
    simpl; rewrite Z0; reflexivity.
  - apply Z.ltb_ge in L1.
    assert (L2 : (n / 10 <? 10)%Z = true) by (apply Z.ltb_lt; lia).
    rewrite L2; reflexivity.
Qed.

Lemma strftime_stamp_format (t : datetime) :
  datetime_ok t -> (1000 <= dt_year t)%Z ->
  strftime_stamp t
  = fixed_width 4 (dt_year t) ++ fixed_width 2 (dt_month t) ++ fixed_width 2 (dt_day t)
    ++ "_" ++ fixed_width 2 (dt_hour t) ++ fixed_width 2 (dt_minute t)
    ++ fixed_width 2 (dt_second t).
Proof.
  intros (Hy & Hmo & Hd & Hh & Hmi & Hs) Hy'.
  unfold strftime_stamp.
  rewrite str_Z_four_digits by lia.
  rewrite !pad2_two_digits by lia.
  reflexivity.
Qed.

(** C9: with no destination, a non-empty DataFrame is written by
    [save_to_excel] to "reddit_top_posts_<stamp>.xlsx" and by [save_to_csv] to
    "reddit_top_posts_<stamp>.csv", where <stamp> is the clock read by
    [datetime.now()] in the form YYYYMMDD_HHMMSS (15 characters, for a
    four-digit year); [main] without [--output] takes the spreadsheet path. *)
Theorem default_destination_timestamped (df : DataFrame) (w : World)
  (Hne : df_empty df = false) (Hfs : forall q, fs_error w q = None)
  (Hnow : datetime_ok (now w)) (Hyear : (1000 <= dt_year (now w))%Z) :
  let t := now w in
  let stamp := strftime_stamp t in
  stamp = fixed_width 4 (dt_year t) ++ fixed_width 2 (dt_month t)
          ++ fixed_width 2 (dt_day t) ++ "_" ++ fixed_width 2 (dt_hour t)
          ++ fixed_width 2 (dt_minute t) ++ fixed_width 2 (dt_second t)
  /\ String.length stamp = 15%nat
  /\ (exists w', save_to_excel df None w
                 = (Ok (Some ("reddit_top_posts_" ++ stamp ++ ".xlsx")), w')
        /\ fs_files w' = ("reddit_top_posts_" ++ stamp ++ ".xlsx", df_to_file Xlsx df)
                         :: fs_files w)
  /\ (exists w', save_to_csv df None w
                 = (Ok (Some ("reddit_top_posts_" ++ stamp ++ ".csv")), w')
        /\ fs_files w' = ("reddit_top_posts_" ++ stamp ++ ".csv", df_to_file Csv df)
                         :: fs_files w)
  /\ (exists w', save_output None df w = (Ok tt, w')
        /\ fs_files w' = ("reddit_top_posts_" ++ stamp ++ ".xlsx", df_to_file Xlsx df)
                         :: fs_files w).
Proof.
  intros t stamp.
  assert (Hst : stamp = fixed_width 4 (dt_year t) ++ fixed_width 2 (dt_month t)
          ++ fixed_width 2 (dt_day t) ++ "_" ++ fixed_width 2 (dt_hour t)
          ++ fixed_width 2 (dt_minute t) ++ fixed_width 2 (dt_second t))
    by (apply strftime_stamp_format; assumption).
  destruct (save_df_success Xlsx df None w Hne Hfs) as [wx [Ex [Fx _]]].
  destruct (save_df_success Csv df None w Hne Hfs) as [wc [Ec [Fc _]]].
  split; [exact Hst |]; split.
  - rewrite Hst, !length_append_str, !fixed_width_length; reflexivity.
  - split; [exists wx; split; assumption |]; split; [exists wc; split; assumption |].
    exists wx; split; [| exact Fx].
    unfold save_output, bind; fold (save_to_excel df None); unfold save_to_excel.
    rewrite Ex; reflexivity.
Qed.

Definition w_empty_dir : World :=
  world_of (fun n => inr n) (fun _ _ _ => yields_then [sample_post] LEnd) (fun _ => None).

Definition df_sample : DataFrame := DataFrame_of_records (records_of [("python", sample_post)]).

Lemma default_destination_timestamped_witness :
  df_empty df_sample = false
  /\ (forall q, fs_error w_empty_dir q = None)
  /\ datetime_ok (now w_empty_dir) /\ (1000 <= dt_year (now w_empty_dir))%Z
  /\ strftime_stamp (now w_empty_dir) = "20261015_093005"
  /\ (exists w', save_output None df_sample w_empty_dir = (Ok tt, w')
        /\ fs_files w' = ("reddit_top_posts_" ++ strftime_stamp (now w_empty_dir) ++ ".xlsx",
                          df_to_file Xlsx df_sample) :: fs_files w_empty_dir).
Proof.
  assert (Hok : datetime_ok (now w_empty_dir)) by (cbv; repeat split; discriminate).
  assert (Hy : (1000 <= dt_year (now w_empty_dir))%Z) by (cbv; discriminate).
  split; [reflexivity |]; split; [reflexivity |]; split; [exact Hok |]; split; [exact Hy |].
  split; [reflexivity |].
  exact (proj2 (proj2 (proj2 (proj2
           (default_destination_timestamped df_sample w_empty_dir eq_refl
              (fun _ => eq_refl) Hok Hy))))).
Defined.

(** ** Choice of the output kind in [main] *)

Lemma endswith_csv_not_xlsx (o : string) :
  endswith o ".csv" = true -> endswith o ".xlsx" = false.
Proof.
  unfold endswith; cbn [String.length]; intros Hc.
  apply andb_true_iff in Hc as [_ Hc]; apply String.eqb_eq in Hc.
  destruct (5 <=? String.length o)%nat eqn:L; [| reflexivity]; simpl.
  apply Nat.leb_le in L.
  destruct (String.eqb (substring (String.length o - 5) 5 o) ".xlsx") eqn:Hx;
    [| reflexivity].
  apply String.eqb_eq in Hx.
  assert (G1 : get 0 (substring (String.length o - 4) 4 o) = Some "."%char)
    by (rewrite Hc; reflexivity).
  assert (G2 : get 1 (substring (String.length o - 5) 5 o) = Some "x"%char)
    by (rewrite Hx; reflexivity).
  rewrite substring_correct1 in G1, G2 by lia.
  replace (1 + (String.length o - 5))%nat with (0 + (String.length o - 4))%nat in G2 by lia.
  congruence.
Qed.

(** C5 as stated, refuted: the supplied path "" is neither ".csv" nor ".xlsx",
    yet [if args.output:] treats it as absent, so no ".csv" file is written;
    the timestamped spreadsheet is. *)
Lemma save_output_empty_path_counterexample :
  file_at ".csv" (fs_files (snd (save_output (Some "") df_sample w_empty_dir))) = None
  /\ file_at "reddit_top_posts_20261015_093005.xlsx"
       (fs_files (snd (save_output (Some "") df_sample w_empty_dir)))
     = Some (df_to_file Xlsx df_sample).
Proof. vm_compute; split; reflexivity. Qed.

(** C5 (amended): an empty [--output] value is treated as absent, which
    writes the spreadsheet with the timestamped default name; for a supplied,
    non-empty destination [o] and a non-empty DataFrame, [main] writes one
    file: a spreadsheet at [o] when [o] ends in ".xlsx", a CSV file at [o]
    when it ends in ".csv", and otherwise a CSV file at [o ++ ".csv"]. *)
Theorem save_output_by_extension (df : DataFrame) (w : World) :
  save_output (Some "") df w = save_output None df w
  /\ (df_empty df = false -> (forall q, fs_error w q = None) ->
      (exists w', save_output None df w = (Ok tt, w')
         /\ fs_files w' = ("reddit_top_posts_" ++ strftime_stamp (now w) ++ ".xlsx",
                           df_to_file Xlsx df) :: fs_files w)
      /\ (forall o, o <> "" ->
          exists w', save_output (Some o) df w = (Ok tt, w')
          /\ (endswith o ".csv" = true -> fs_files w' = (o, df_to_file Csv df) :: fs_files w)
          /\ (endswith o ".xlsx" = true -> fs_files w' = (o, df_to_file Xlsx df) :: fs_files w)
          /\ (endswith o ".csv" = false -> endswith o ".xlsx" = false ->
              fs_files w' = (o ++ ".csv", df_to_file Csv df) :: fs_files w))).
Proof.
  split; [reflexivity |]; intros Hne Hfs; split.
  - destruct (save_df_success Xlsx df None w Hne Hfs) as [w' [E [F _]]].
    exists w'; change (save_output None df w) with (bind (save_df Xlsx df None) (fun _ => ret tt) w).
    unfold bind at 1; rewrite E; split; [reflexivity | exact F].
  - intros o Ho.
    unfold save_output; apply String.eqb_neq in Ho; rewrite Ho.
    destruct (endswith o ".xlsx") eqn:X.
    + destruct (save_df_success Xlsx df (Some o) w Hne Hfs) as [w' [E [F _]]].
      exists w'; unfold bind at 1; fold (save_to_excel df (Some o)); unfold save_to_excel.
      rewrite E; split; [reflexivity |].
      split; [intros C; apply endswith_csv_not_xlsx in C; congruence |].
      split; [intros _; exact F | intros _ C; discriminate C].
    + destruct (endswith o ".csv") eqn:C.
      * destruct (save_df_success Csv df (Some o) w Hne Hfs) as [w' [E [F _]]].
        exists w'; unfold bind at 1; fold (save_to_csv df (Some o)); unfold save_to_csv.
        rewrite E; split; [reflexivity |].
        split; [intros _; exact F | split; [discriminate | discriminate]].
      * set (w1 := print "Unsupported output format. Using CSV format." w).
        destruct (save_df_success Csv df (Some (o ++ ".csv")) w1 Hne Hfs) as [w' [E [F _]]].
        exists w'; unfold bind at 1, say; fold w1.
        unfold bind; fold (save_to_csv df (Some (o ++ ".csv"))); unfold save_to_csv.
        rewrite E; split; [reflexivity |].
        split; [discriminate | split; [discriminate | intros _ _; exact F]].
Qed.

Lemma save_output_by_extension_witness :
  save_output (Some "") df_sample w_empty_dir = save_output None df_sample w_empty_dir
  /\ df_empty df_sample = false /\ (forall q, fs_error w_empty_dir q = None)
  /\ "out.txt" <> ""
  /\ endswith "out.txt" ".csv" = false /\ endswith "out.txt" ".xlsx" = false
  /\ exists w', save_output (Some "out.txt") df_sample w_empty_dir = (Ok tt, w')
    /\ fs_files w' = ("out.txt.csv", df_to_file Csv df_sample) :: fs_files w_empty_dir.
Proof.
  destruct (save_output_by_extension df_sample w_empty_dir) as [E0 K].
  destruct (K eq_refl (fun _ => eq_refl)) as [_ K2].
  split; [exact E0 |]; split; [reflexivity |]; split; [reflexivity |].
  split; [discriminate |]; split; [reflexivity |]; split; [reflexivity |].
  destruct (K2 "out.txt" ltac:(discriminate)) as [w' [E [_ [_ F]]]].
  exists w'; split; [exact E | exact (F eq_refl eq_refl)].
Defined.

(** * [main] and the exit status *)

Lemma get_top_posts_fs (n : string) (limit : Z) (tf : string) (w : World) :
  fs_error (snd (get_top_posts n limit tf w)) = fs_error w.
Proof.
  unfold get_top_posts; destruct (api_subreddit w n); [reflexivity |].
  destruct (fetch_loop _ _ _); reflexivity.
Qed.

Lemma get_top_posts_ok (n : string) (limit : Z) (tf : string) (w : World) (h : string) :
  api_subreddit w n = inr h -> exists ps, fst (get_top_posts n limit tf w) = Ok ps.
Proof.
  intros Hh; unfold get_top_posts; rewrite Hh.
  destruct (fetch_loop _ _ _); eexists; reflexivity.
Qed.

Lemma fetch_each_ok (l : list string) (limit : Z) (tf : string) (w : World) :
  Forall (fun n => exists h, api_subreddit w n = inr h) l ->
  exists lss, fetch_each l limit tf w = Ok lss.
Proof.
  induction 1 as [| n l [h Hh] _ [lss IH]]; [exists []; reflexivity |].
  destruct (get_top_posts_ok n limit tf w h Hh) as [ps E].
  exists (ps :: lss); simpl; rewrite E, IH; reflexivity.
Qed.

Lemma scrape_loop_fs (l : list string) (limit : Z) (tf : string) :
  forall (acc : list post_data) (w : World),
  fs_error (snd (scrape_loop l limit tf acc w)) = fs_error w.
Proof.
  induction l as [| n l IH]; intros acc w; [reflexivity |].
  cbn [scrape_loop]; unfold bind at 1, say; cbv beta.
  pose proof (get_top_posts_fs n limit tf (print ("Scraping r/" ++ n ++ "...") w)) as Hw.
  unfold bind.
  destruct (get_top_posts n limit tf (print ("Scraping r/" ++ n ++ "...") w))
    as [[ps | e] w1]; simpl in *; [| exact Hw].
  rewrite IH; exact Hw.
Qed.

Lemma scrape_multiple_ok (l : list string) (limit : Z) (tf : string) (w : World) :
  Forall (fun n => exists h, api_subreddit w n = inr h) l ->
  exists df w1, scrape_multiple_subreddits l limit tf w = (Ok df, w1)
                /\ fs_error w1 = fs_error w.
Proof.
  intros Hh; destruct (fetch_each_ok l limit tf w Hh) as [lss Hf].
  pose proof (scrape_loop_concat l limit tf [] w) as E; rewrite Hf in E.
  pose proof (scrape_loop_fs l limit tf [] w) as F.
  unfold scrape_multiple_subreddits, bind at 1.
  destruct (scrape_loop l limit tf [] w) as [r w1]; simpl in E, F; subst r.
  destruct (concat lss); eexists _, _; split; try reflexivity; exact F.
Qed.

Lemma save_df_ok (k : file_kind) (df : DataFrame) (dest : option string) (w : World) :
  (forall q, fs_error w q = None) -> exists r w', save_df k df dest w = (Ok r, w').
Proof.
  intros Hfs; destruct (df_empty df) eqn:Hd.
  - unfold save_df; rewrite Hd; eexists _, _; reflexivity.
  - destruct (save_df_success k df dest w Hd Hfs) as [w' [E _]]; eexists _, _; exact E.
Qed.

Lemma save_output_ok (o : option string) (df : DataFrame) (w : World) :
  (forall q, fs_error w q = None) -> exists w', save_output o df w = (Ok tt, w').
Proof.
  intros Hfs.
  assert (K : forall k dest w0, (forall q, fs_error w0 q = None) ->
            exists w', bind (save_df k df dest) (fun _ => ret tt) w0 = (Ok tt, w')).
  { intros k dest w0 H0; destruct (save_df_ok k df dest w0 H0) as [r [w' E]].
    exists w'; unfold bind; rewrite E; reflexivity. }
  unfold save_output, save_to_excel, save_to_csv.
  destruct o as [o |]; [| apply K, Hfs].
  destruct (String.eqb o ""); [apply K, Hfs |].
  destruct (endswith o ".xlsx"); [apply K, Hfs |].
  destruct (endswith o ".csv"); [apply K, Hfs |].
  unfold bind at 1, say; apply K; exact Hfs.
Qed.

Lemma save_output_error (o : option string) (df : DataFrame) (w : World) (e : exn)
  (w' : World) :
  save_output o df w = (Err e, w') -> exists p x, fs_error w p = Some (e, x).
Proof.
  assert (K : forall k dest w0, fs_error w0 = fs_error w ->
            bind (save_df k df dest) (fun _ => ret tt) w0 = (Err e, w') ->
            exists p x, fs_error w p = Some (e, x)).
  { intros k dest w0 F0 H; unfold bind in H.
    destruct (save_df k df dest w0) as [[r | e1] w1] eqn:E; [discriminate H |].
    injection H as <- _; rewrite <- F0; exact (save_df_error_origin _ _ _ _ _ _ E). }
  unfold save_output, save_to_excel, save_to_csv.
  destruct o as [o |]; [| apply (K _ _ w eq_refl)].
  destruct (String.eqb o ""); [apply (K _ _ w eq_refl) |].
  destruct (endswith o ".xlsx"); [apply (K _ _ w eq_refl) |].
  destruct (endswith o ".csv"); [apply (K _ _ w eq_refl) |].
  unfold bind at 1, say;
    apply (K _ _ (print "Unsupported output format. Using CSV format." w) eq_refl).
Qed.

(** C3 (amended): when every forum handle is created, [main] completes
    normally (exit code 0) if no path raises an error on directory creation or
    on writing, whatever the listings do (they may raise, or yield nothing) and
    whatever the destination. It can only fail with an error that directory
    creation or the writer raised for some path, and an error the exporter
    raises is caught nowhere: [main] ends with it, exit code 1. *)
Theorem main_exit_status (args : Args) (w : World)
  (Hh : Forall (fun n => exists h, api_subreddit w n = inr h) (a_subreddits args)) :
  ((forall q, fs_error w q = None) -> exit_code args w = 0%Z)
  /\ (forall e, fst (main args w) = Err e ->
        exit_code args w = 1%Z /\ exists p x, fs_error w p = Some (e, x))
  /\ (forall df w1 e w2,
        scrape_multiple_subreddits (a_subreddits args) (a_limit args) (a_time_filter args) w
          = (Ok df, w1) ->
        save_output (a_output args) df w1 = (Err e, w2) ->
        main args w = (Err e, w2) /\ exit_code args w = 1%Z).
Proof.
  destruct (scrape_multiple_ok (a_subreddits args) (a_limit args) (a_time_filter args) w Hh)
    as [df [w1 [E F]]].
  assert (Mn : main args w = save_output (a_output args) df w1)
    by (unfold main, bind; rewrite E; reflexivity).
  split; [| split].
  - intros Hfs.
    assert (Hfs1 : forall q, fs_error w1 q = None) by (intros q; rewrite F; apply Hfs).
    destruct (save_output_ok (a_output args) df w1 Hfs1) as [w2 E2].
    unfold exit_code; rewrite Mn, E2; reflexivity.
  - intros e He; unfold exit_code; rewrite He; split; [reflexivity |].
    rewrite Mn in He; destruct (save_output (a_output args) df w1) as [r w2] eqn:E2.
    simpl in He; subst r; rewrite <- F; exact (save_output_error _ _ _ _ _ E2).
  - intros df' w1' e w2 E' E2.
    rewrite E in E'; injection E' as <- <-.
    assert (M2 : main args w = (Err e, w2)) by (rewrite Mn; exact E2).
    unfold exit_code; rewrite M2; split; reflexivity.
Qed.

(** The destination cannot be written (e.g. permission denied). *)
Definition w_readonly : World :=
  world_of (fun n => inr n) (fun _ _ _ => yields_then [sample_post] LEnd)
    (fun p => if String.eqb p "out.csv" then Some (mk_exn OSError "Permission denied", None)
              else None).

(** C3 as stated, refuted: a write error of [df.to_csv] is caught nowhere,
    so [main] ends with an uncaught exception and exit status 1. *)
Lemma main_write_error_counterexample :
  exit_code (args_of ["python"] (Some "out.csv")) w_readonly = 1%Z.
Proof. vm_compute; reflexivity. Qed.

Lemma main_exit_status_witness :
  Forall (fun n => exists h, api_subreddit w_readonly n = inr h) ["python"]
  /\ fst (main (args_of ["python"] (Some "out.csv")) w_readonly)
     = Err (mk_exn OSError "Permission denied")
  /\ exit_code (args_of ["python"] (Some "out.csv")) w_readonly = 1%Z
  /\ exists p x, fs_error w_readonly p = Some (mk_exn OSError "Permission denied", x).
Proof.
  assert (Hh : Forall (fun n => exists h, api_subreddit w_readonly n = inr h) ["python"])
    by (repeat constructor; eexists; reflexivity).
  assert (He : fst (main (args_of ["python"] (Some "out.csv")) w_readonly)
               = Err (mk_exn OSError "Permission denied")) by (vm_compute; reflexivity).
  split; [exact Hh | split; [exact He |]].
  destruct (main_exit_status (args_of ["python"] (Some "out.csv")) w_readonly Hh)
    as [_ [K _]].
  exact (K _ He).
Defined.

Definition two_forums : list (list post_data) :=
  [[build_post_data "python" sample_post]; [build_post_data "rust" sample_post]].

Lemma scrape_multiple_concat_witness :
  fetch_each ["python"; "rust"] 25 "week" w_random = Ok two_forums
  /\ exists df,
    fst (scrape_multiple_subreddits ["python"; "rust"] 25 "week" w_random) = Ok df
    /\ df_rows df = map (fun r => map (fun c => cell c r) (df_columns df)) (concat two_forums)
    /\ (concat two_forums = [] -> df = DataFrame_empty)
    /\ (concat two_forums <> [] -> df = DataFrame_of_records (concat two_forums)).
Proof.
  assert (H : fetch_each ["python"; "rust"] 25 "week" w_random = Ok two_forums)
    by (vm_compute; reflexivity).
  split; [exact H |].
  exact (scrape_multiple_concat ["python"; "rust"] 25 "week" w_random two_forums H).
Defined.

(** * Further properties of the fetcher, the aggregator and the exporter *)

(** A listing that ends normally: [get_top_posts] returns one record per
    yielded post, in the listing's order, and prints their number. *)
Theorem get_top_posts_success (name : string) (limit : Z) (tf : string) (w : World)
  (h : string) (ps : list RawPost)
  (Hh : api_subreddit w name = inr h)
  (Hl : api_top w h tf limit = yields_then ps LEnd) :
  get_top_posts name limit tf w
  = (Ok (map (build_post_data name) ps),
     print ("Successfully scraped " ++ str_Z (Z.of_nat (length ps))
            ++ " posts from r/" ++ name) w).
Proof.
  unfold get_top_posts; rewrite Hh, Hl, fetch_loop_yields; simpl.
  rewrite length_map; reflexivity.
Qed.

Lemma get_top_posts_success_witness :
  api_subreddit w_random "python" = inr "python"
  /\ api_top w_random "python" "week" 25 = yields_then [sample_post] LEnd
  /\ get_top_posts "python" 25 "week" w_random
     = (Ok (map (build_post_data "python") [sample_post]),
        print ("Successfully scraped " ++ str_Z (Z.of_nat (length [sample_post]))
               ++ " posts from r/" ++ "python") w_random).
Proof.
  split; [reflexivity | split; [reflexivity |]].
  apply (get_top_posts_success "python" 25 "week" w_random "python" [sample_post]);
    reflexivity.
Defined.

Lemma post_fields_NoDup : NoDup post_fields.
Proof.
  unfold post_fields.
  repeat (apply NoDup_cons;
          [simpl; intros H; repeat (destruct H as [H | H]; [discriminate H |]); exact H |]).
  apply NoDup_nil.
Qed.

(** Every record has the same eleven distinct keys, in the same order,
    whatever the post ([d[k] = v] on a new key appends it, never twice). *)
Theorem build_post_data_fields (f : string) (post : RawPost) :
  map fst (build_post_data f post) = post_fields
  /\ NoDup (map fst (build_post_data f post)).
Proof.
  rewrite build_post_data_keys; split; [reflexivity | exact post_fields_NoDup].
Qed.

Lemma build_subreddit (f : string) (post : RawPost) :
  dict_get "subreddit" (build_post_data f post) = Some (VStr f).
Proof. destruct post as [i t s n c u l b x a]; destruct b, a; reflexivity. Qed.

Lemma fetch_loop_tagged (name : string) (it : listing) :
  forall acc ps,
  Forall (fun r => dict_get "subreddit" r = Some (VStr name)) acc ->
  fetch_loop name acc it = inr ps ->
  Forall (fun r => dict_get "subreddit" r = Some (VStr name)) ps.
Proof.
  induction it as [| e | p rest IH]; intros acc ps Hacc E; simpl in E.
  - injection E as <-; exact Hacc.
  - discriminate E.
  - refine (IH _ _ _ E); apply Forall_app; split; [exact Hacc |].
    constructor; [apply build_subreddit | constructor].
Qed.

Lemma get_top_posts_tagged (name : string) (limit : Z) (tf : string) (w : World)
  (ps : list post_data) :
  fst (get_top_posts name limit tf w) = Ok ps ->
  Forall (fun r => dict_get "subreddit" r = Some (VStr name)) ps.
Proof.
  unfold get_top_posts; destruct (api_subreddit w name) as [e | h]; [discriminate |].
  destruct (fetch_loop name [] _) as [e | qs] eqn:E; simpl; intros H; injection H as <-.
  - constructor.
  - exact (fetch_loop_tagged name _ [] qs (Forall_nil _) E).
Qed.

(** Each forum's records carry that forum's name in their "subreddit" field:
    the per-forum results line up with the forum list. *)
Theorem fetch_each_tagged (l : list string) (limit : Z) (tf : string) (w : World)
  (lss : list (list post_data))
  (H : fetch_each l limit tf w = Ok lss) :
  Forall2 (fun n ps => Forall (fun r => dict_get "subreddit" r = Some (VStr n)) ps) l lss.
Proof.
  revert lss H; induction l as [| n l IH]; intros lss H; simpl in H.
  - injection H as <-; constructor.
  - destruct (fst (get_top_posts n limit tf w)) as [ps | e] eqn:E; [| discriminate].
    destruct (fetch_each l limit tf w) as [lss' | e]; [| discriminate].
    injection H as <-; constructor; [exact (get_top_posts_tagged _ _ _ _ _ E) |].
    apply IH; reflexivity.
Qed.

Lemma fetch_each_tagged_witness :
  fetch_each ["python"; "rust"] 25 "week" w_random = Ok two_forums
  /\ Forall2 (fun n ps => Forall (fun r => dict_get "subreddit" r = Some (VStr n)) ps)
       ["python"; "rust"] two_forums.
Proof.
  assert (H : fetch_each ["python"; "rust"] 25 "week" w_random = Ok two_forums)
    by (vm_compute; reflexivity).
  split; [exact H | exact (fetch_each_tagged _ _ _ _ _ H)].
Defined.

(** The first forum whose handle cannot be created aborts the batch:
    [scrape_multiple_subreddits] raises that error. *)
Theorem scrape_multiple_error (l : list string) (limit : Z) (tf : string) (w : World)
  (e : exn) (H : fetch_each l limit tf w = Err e) :
  fst (scrape_multiple_subreddits l limit tf w) = Err e.
Proof.
  pose proof (scrape_loop_concat l limit tf [] w) as E; rewrite H in E.
  unfold scrape_multiple_subreddits, bind at 1.
  destruct (scrape_loop l limit tf [] w) as [r w1]; simpl in E; subst r; reflexivity.
Qed.

Lemma scrape_multiple_error_witness :
  fetch_each ["python"; "random"; "rust"] 25 "week" w_random = Err net_error
  /\ fst (scrape_multiple_subreddits ["python"; "random"; "rust"] 25 "week" w_random)
     = Err net_error.
Proof.
  assert (H : fetch_each ["python"; "random"; "rust"] 25 "week" w_random = Err net_error)
    by (vm_compute; reflexivity).
  split; [exact H | exact (scrape_multiple_error _ _ _ _ _ H)].
Defined.

(** The file-system part of a world. *)
Definition same_fs (w w' : World) : Prop :=
  fs_dirs w = fs_dirs w' /\ fs_files w = fs_files w' /\ fs_error w = fs_error w'.

Lemma same_fs_trans (w1 w2 w3 : World) :
  same_fs w1 w2 -> same_fs w2 w3 -> same_fs w1 w3.
Proof. intros (A & B & C) (D & E & F); repeat split; congruence. Qed.

Lemma get_top_posts_same_fs (n : string) (limit : Z) (tf : string) (w : World) :
  same_fs (snd (get_top_posts n limit tf w)) w.
Proof.
  unfold get_top_posts; destruct (api_subreddit w n); [repeat split |].
  destruct (fetch_loop _ _ _); repeat split.
Qed.

Lemma scrape_loop_same_fs (l : list string) (limit : Z) (tf : string) :
  forall (acc : list post_data) (w : World),
  same_fs (snd (scrape_loop l limit tf acc w)) w.
Proof.
  induction l as [| n l IH]; intros acc w; [repeat split |].
  cbn [scrape_loop]; unfold bind at 1, say; cbv beta.
  pose proof (get_top_posts_same_fs n limit tf (print ("Scraping r/" ++ n ++ "...") w)) as Hw.
  assert (Hp : same_fs (print ("Scraping r/" ++ n ++ "...") w) w) by repeat split.
  unfold bind.
  destruct (get_top_posts n limit tf (print ("Scraping r/" ++ n ++ "...") w))
    as [[ps | e] w1]; simpl in *.
  - exact (same_fs_trans _ _ _ (IH _ w1) (same_fs_trans _ _ _ Hw Hp)).
  - exact (same_fs_trans _ _ _ Hw Hp).
Qed.

(** Scraping never touches the file system, whether it succeeds or raises. *)
Theorem scrape_multiple_no_fs (l : list string) (limit : Z) (tf : string) (w : World) :
  fs_dirs (snd (scrape_multiple_subreddits l limit tf w)) = fs_dirs w
  /\ fs_files (snd (scrape_multiple_subreddits l limit tf w)) = fs_files w.
Proof.
  pose proof (scrape_loop_same_fs l limit tf [] w) as F.
  unfold scrape_multiple_subreddits, bind.
  destruct (scrape_loop l limit tf [] w) as [[all | e] w1]; simpl in F.
  - destruct F as (A & B & _); destruct all; cbn; split; assumption.
  - destruct F as (A & B & _); cbn; split; assumption.
Qed.

(** ** The exporter against the file system *)




(** A save that returns the path [q] keeps every directory, and leaves the
    parent of [q] existing: it is "", or a directory (created if it was
    missing), or a path that already existed as a file. *)
Theorem save_df_parent_dir (k : file_kind) (df : DataFrame) (dest : option string)
  (w : World) (q : string) (w' : World)
  (H : save_df k df dest w = (Ok (Some q), w')) :
  incl (fs_dirs w) (fs_dirs w')
  /\ (dirname q = "" \/ In (dirname q) (fs_dirs w')
      \/ exists f, file_at (dirname q) (fs_files w) = Some f).
Proof.
  destruct (df_empty df) eqn:Hd; [unfold save_df in H; rewrite Hd in H; discriminate H |].
  destruct (save_df_cases k df dest w _ _ Hd H)
    as [[e [Er _]] | [w0 [T [_ [_ [I P]]]]]]; [discriminate Er |].
  destruct (save_tail_cases _ _ _ _ _ _ T) as [D [[Er _] | [e [x [Er _]]]]];
    [| discriminate Er].
  injection Er as ->; rewrite D; split; [exact I | exact P].
Qed.

Definition w_nested : World :=
  world_of (fun n => inr n) (fun _ _ _ => yields_then [sample_post] LEnd) (fun _ => None).

Lemma save_df_parent_dir_witness :
  save_df Csv df_sample (Some "reports/week/out.csv") w_nested
  = (Ok (Some "reports/week/out.csv"),
     snd (save_df Csv df_sample (Some "reports/week/out.csv") w_nested))
  /\ incl (fs_dirs w_nested) (fs_dirs (snd (save_df Csv df_sample (Some "reports/week/out.csv") w_nested)))
  /\ (dirname "reports/week/out.csv" = ""
      \/ In (dirname "reports/week/out.csv")
            (fs_dirs (snd (save_df Csv df_sample (Some "reports/week/out.csv") w_nested)))
      \/ exists f, file_at (dirname "reports/week/out.csv") (fs_files w_nested) = Some f).
Proof.
  assert (H : save_df Csv df_sample (Some "reports/week/out.csv") w_nested
              = (Ok (Some "reports/week/out.csv"),
                 snd (save_df Csv df_sample (Some "reports/week/out.csv") w_nested)))
    by (vm_compute; reflexivity).
  split; [exact H | exact (save_df_parent_dir _ _ _ _ _ _ H)].
Defined.

(** ** [os.path.dirname] *)

Lemma append_assoc_str (s t u : string) : s ++ t ++ u = (s ++ t) ++ u.
Proof. induction s as [| c s IH]; simpl; [reflexivity | now rewrite IH]. Qed.

Lemma list_ascii_of_string_app (s t : string) :
  list_ascii_of_string (s ++ t) = (list_ascii_of_string s ++ list_ascii_of_string t)%list.
Proof. induction s as [| c s IH]; simpl; [reflexivity | now rewrite IH]. Qed.

Lemma upto_last_slash_none (f : string) :
  ~ In "/"%char (list_ascii_of_string f) -> upto_last_slash f = "".
Proof.
  induction f as [| a f IH]; intros Hf; [reflexivity |]; simpl in Hf |- *.
  rewrite IH by tauto.
  destruct (Ascii.eqb a "/") eqn:E; [| reflexivity].
  apply Ascii.eqb_eq in E; subst a; tauto.
Qed.

Lemma upto_last_slash_join (s f : string) :
  ~ In "/"%char (list_ascii_of_string f) -> upto_last_slash (s ++ "/" ++ f) = s ++ "/".
Proof.
  intros Hf; induction s as [| a s IH].
  - simpl; rewrite (upto_last_slash_none f Hf); reflexivity.
  - change (String a s ++ "/" ++ f) with (String a (s ++ "/" ++ f)).
    cbn [upto_last_slash]; rewrite IH; destruct s; reflexivity.
Qed.

(** [os.path.dirname] of "<dir>/<name>" is "<dir>" for a directory not ending
    in "/" and a name without "/"; a name without "/" has dirname "", so
    saving to it creates no directory, whether the save succeeds or raises. *)
Theorem dirname_join (d0 : string) (c : ascii) (f : string)
  (Hc : c <> "/"%char) (Hf : ~ In "/"%char (list_ascii_of_string f)) :
  dirname (d0 ++ String c "" ++ "/" ++ f) = d0 ++ String c ""
  /\ dirname f = ""
  /\ (forall k df w r w', save_df k df (Some f) w = (r, w') -> fs_dirs w' = fs_dirs w).
Proof.
  assert (Hd0 : dirname f = "")
    by (unfold dirname; rewrite (upto_last_slash_none f Hf); reflexivity).
  split; [| split; [exact Hd0 |]].
  - unfold dirname; rewrite append_assoc_str, upto_last_slash_join by exact Hf.
    assert (Hb : Ascii.eqb c "/" = false) by (apply Ascii.eqb_neq; exact Hc).
    assert (L : list_ascii_of_string ((d0 ++ String c "") ++ "/")
                = (list_ascii_of_string d0 ++ [c; "/"%char])%list).
    { rewrite !list_ascii_of_string_app, <- app_assoc; reflexivity. }
    replace (String.eqb ((d0 ++ String c "") ++ "/") "") with false
      by (destruct d0; reflexivity).
    unfold all_slashes, rstrip_slash; rewrite L, forallb_app; simpl; rewrite Hb.
    rewrite andb_false_r; simpl.
    rewrite rev_app_distr; simpl; rewrite Hb; simpl; rewrite rev_involutive.
    replace (list_ascii_of_string d0 ++ [c])%list
      with (list_ascii_of_string (d0 ++ String c ""))
      by (rewrite list_ascii_of_string_app; reflexivity).
    apply string_of_list_ascii_of_string.
  - intros k df w r w' H; destruct (df_empty df) eqn:Hd.
    + unfold save_df in H; rewrite Hd in H; unfold bind, say, ret in H; cbv beta iota in H.
      injection H as _ <-; reflexivity.
    + rewrite (save_df_steps k df (Some f) w Hd) in H; cbn [dest_name] in H.
      rewrite Hd0 in H; cbn [String.eqb negb andb bind ret] in H.
      unfold bind, write_df, say, ret in H.
      destruct (fs_error w f) as [[e [n |]] |]; cbv beta iota in H;
        injection H as _ <-; reflexivity.
Qed.

Lemma dirname_join_witness :
  "s"%char <> "/"%char /\ ~ In "/"%char (list_ascii_of_string "out.csv")
  /\ dirname ("report" ++ String "s" "" ++ "/" ++ "out.csv") = "report" ++ String "s" ""
  /\ dirname "out.csv" = ""
  /\ (forall k df w r w', save_df k df (Some "out.csv") w = (r, w') -> fs_dirs w' = fs_dirs w).
Proof.
  assert (Hc : "s"%char <> "/"%char) by discriminate.
  assert (Hf : ~ In "/"%char (list_ascii_of_string "out.csv")).
  { simpl; intros H; repeat (destruct H as [H | H]; [discriminate H |]); exact H. }
  split; [exact Hc |]; split; [exact Hf |].
  exact (dirname_join "report" "s" "out.csv" Hc Hf).
Defined.

(** ** The file [main] writes *)






Lemma save_output_empty (o : option string) (df : DataFrame) (w : World) :
  df_empty df = true -> exists w', save_output o df w = (Ok tt, w') /\ same_fs w' w.
Proof.
  intros Hd.
  assert (K : forall k dest w0, same_fs w0 w ->
            exists w', bind (save_df k df dest) (fun _ => ret tt) w0 = (Ok tt, w')
                       /\ same_fs w' w).
  { intros k dest w0 H0; unfold bind, save_df; rewrite Hd.
    eexists; split; [reflexivity | exact H0]. }
  assert (Hw : same_fs w w) by repeat split.
  unfold save_output, save_to_excel, save_to_csv.
  destruct o as [o |]; [| apply K, Hw].
  destruct (String.eqb o ""); [apply K, Hw |].
  destruct (endswith o ".xlsx"); [apply K, Hw |].
  destruct (endswith o ".csv"); [apply K, Hw |].
  unfold bind at 1, say; apply K; repeat split.
Qed.

(** A run in which every forum's handle is created but no post is collected
    (each listing raised or was empty) completes normally and leaves the file
    system as it was, whatever [--output] holds and even if every write would
    fail. *)
Theorem main_empty_run_writes_nothing (args : Args) (w : World)
  (lss : list (list post_data))
  (H : fetch_each (a_subreddits args) (a_limit args) (a_time_filter args) w = Ok lss)
  (He : concat lss = []) :
  exit_code args w = 0%Z
  /\ fs_files (snd (main args w)) = fs_files w
  /\ fs_dirs (snd (main args w)) = fs_dirs w.
Proof.
  pose proof (scrape_loop_concat (a_subreddits args) (a_limit args) (a_time_filter args) [] w)
    as E; rewrite H, He in E.
  pose proof (scrape_loop_same_fs (a_subreddits args) (a_limit args) (a_time_filter args) [] w)
    as F.
  destruct (scrape_loop (a_subreddits args) (a_limit args) (a_time_filter args) [] w)
    as [r w1] eqn:S; simpl in E, F; subst r.
  destruct (save_output_empty (a_output args) DataFrame_empty
              (print "No posts were collected." w1) eq_refl) as [w2 [E2 F2]].
  assert (M : main args w = (Ok tt, w2)).
  { unfold main, scrape_multiple_subreddits, bind at 1 2; rewrite S; exact E2. }
  unfold exit_code; rewrite M.
  destruct (same_fs_trans _ _ _ F2 (same_fs_trans _ _ _ (ltac:(repeat split) :
              same_fs (print "No posts were collected." w1) w1) F)) as (A & B & _).
  split; [reflexivity | split; assumption].
Qed.

Definition w_all_fail : World :=
  world_of (fun n => inr n) (fun _ _ _ => yields_then [sample_post] (LRaise net_error))
    (fun _ => Some (mk_exn OSError "Read-only file system", None)).

Lemma main_empty_run_writes_nothing_witness :
  fetch_each ["python"; "rust"] 25 "week" w_all_fail = Ok [[]; []]
  /\ concat [@nil post_data; []] = []
  /\ exit_code (args_of ["python"; "rust"] (Some "out.csv")) w_all_fail = 0%Z
  /\ fs_files (snd (main (args_of ["python"; "rust"] (Some "out.csv")) w_all_fail))
     = fs_files w_all_fail
  /\ fs_dirs (snd (main (args_of ["python"; "rust"] (Some "out.csv")) w_all_fail))
     = fs_dirs w_all_fail.
Proof.
  assert (H : fetch_each ["python"; "rust"] 25 "week" w_all_fail = Ok [[]; []])
    by (vm_compute; reflexivity).
  split; [exact H | split; [reflexivity |]].
  exact (main_empty_run_writes_nothing (args_of ["python"; "rust"] (Some "out.csv"))
           w_all_fail [[]; []] H eq_refl).
Defined.

(** When a forum handle cannot be created, [main] ends with that exception
    (exit status 1) and has written no file and created no directory: no
    partial export is left behind. *)
Theorem main_batch_error_writes_nothing (args : Args) (w : World) (e : exn)
  (H : fetch_each (a_subreddits args) (a_limit args) (a_time_filter args) w = Err e) :
  fst (main args w) = Err e
  /\ exit_code args w = 1%Z
  /\ fs_files (snd (main args w)) = fs_files w
  /\ fs_dirs (snd (main args w)) = fs_dirs w.
Proof.
  pose proof (scrape_loop_concat (a_subreddits args) (a_limit args) (a_time_filter args) [] w)
    as E; rewrite H in E.
  pose proof (scrape_loop_same_fs (a_subreddits args) (a_limit args) (a_time_filter args) [] w)
    as F.
  destruct (scrape_loop (a_subreddits args) (a_limit args) (a_time_filter args) [] w)
    as [r w1] eqn:S; simpl in E, F; subst r.
  assert (M : main args w = (Err e, w1)).
  { unfold main, scrape_multiple_subreddits, bind at 1 2; rewrite S; reflexivity. }
  unfold exit_code; rewrite M; destruct F as (A & B & _).
  repeat split; assumption.
Qed.

Lemma main_batch_error_writes_nothing_witness :
  fetch_each ["python"; "random"] 25 "week" w_random = Err net_error
  /\ fst (main (args_of ["python"; "random"] None) w_random) = Err net_error
  /\ exit_code (args_of ["python"; "random"] None) w_random = 1%Z
  /\ fs_files (snd (main (args_of ["python"; "random"] None) w_random)) = fs_files w_random
  /\ fs_dirs (snd (main (args_of ["python"; "random"] None) w_random)) = fs_dirs w_random.
Proof.
  assert (H : fetch_each ["python"; "random"] 25 "week" w_random = Err net_error)
    by (vm_compute; reflexivity).
  split; [exact H |].
  exact (main_batch_error_writes_nothing (args_of ["python"; "random"] None) w_random
           net_error H).
Defined.
